(** * The Go analyzer of fossa-cli: construction and build operations

    A shallow embedding of [analyzers/golang/golang.go]: the [Options] and
    [Analyzer] structs, the constructor [New] and the methods [Clean],
    [Build] and [IsBuilt].

    The analyzer shells out to the [go] tool and reads the process
    environment.  Those collaborators live outside the file, so the
    embedding abstracts them in a record of operations over a [World] (the
    state of the host: filesystem, build cache, installed commands), and
    threads the world and the debug log through a small state monad. *)

From Stdlib Require Import List Lia.
From stdpp Require Import base option gmap strings list.

(** ** Go values *)

(** A value of Go's [error] interface is [None] for [nil] and carries its
    message otherwise. *)
Definition error : Type := string.

(** A Go map is a reference: either [nil] or a handle on an allocated table.
    Reading a [nil] map finds nothing; assigning into one panics. *)
Module gomap.

Definition t (V : Type) : Type := option (gmap string V).

(** [make(map[string]V)] *)
Definition make {V : Type} : t V := Some ∅.

(** [v, ok := m[k]] *)
Definition get {V : Type} (m : t V) (k : string) : option V :=
  match m with
  | None => None
  | Some tbl => tbl !! k
  end.

(** [m[k] = v]; [None] is the run-time panic on a [nil] map. *)
Definition set {V : Type} (m : t V) (k : string) (v : V) : option (t V) :=
  match m with
  | None => None
  | Some tbl => Some (Some (<[k := v]> tbl))
  end.

(** [len(m)] *)
Definition len {V : Type} (m : t V) : nat :=
  match m with
  | None => 0
  | Some tbl => size tbl
  end.

End gomap.

(** [p == nil] for a pointer [p]. *)
Definition is_nil {A : Type} (p : option A) : bool :=
  match p with
  | None => true
  | Some _ => false
  end.

(** ** A state monad for code that acts on its surroundings *)

Definition M (S A : Type) : Type := S -> A * S.

#[global] Instance M_ret {S : Type} : MRet (M S) :=
  fun A (x : A) (s : S) => (x, s).

#[global] Instance M_bind {S : Type} : MBind (M S) :=
  fun A B (f : A -> M S B) (c : M S A) (s : S) =>
    let (x, s') := c s in f x s'.

Definition gets {S A : Type} (f : S -> A) : M S A := fun s => (f s, s).

Definition modify {S : Type} (f : S -> S) : M S unit := fun s => (tt, f s).

(** ** The collaborating packages *)

Module gocmd.

(** The handle on the build tool, as [New] fills it in. *)
Record Go : Type := {
  Cmd : string;
  Dir : string
}.

(** Modelled from the spec: the declaration of [gocmd.Package] is not part
    of this file's source.  The fields are those of the specification's
    Package record ([PkgDir] is its [Dir]); the optional tool error is the
    pointer field [Error] that [IsBuilt] compares with [nil]. *)
Record Package : Type := {
  ImportPath : string;
  PkgDir : string;
  IsStandard : bool;
  IsInternal : bool;
  DirectImports : list string;
  Error : option string
}.

End gocmd.

Module module.

(** Modelled from the spec: the declaration of [module.Module] is not part
    of this file's source.  The specification gives it the three fields the
    analyzer reads; [Options] is the raw, undecoded option table. *)
Record Module (RawOptions : Type) : Type := {
  Dir : string;
  BuildTarget : string;
  Options : RawOptions
}.

Arguments Dir {RawOptions} _.
Arguments BuildTarget {RawOptions} _.
Arguments Options {RawOptions} _.

End module.

Module exec.

(** The error kind of a missing tool. *)
Definition ToolchainMissing : error := "could not resolve command".

(** Modelled from the spec: [exec.Which] is not part of this file's source.
    The specification makes the command name configurable and the absence of
    the tool an error: of the candidate commands, in the order given, the
    first one that is available is chosen, together with what it prints when
    run with [arg]; when none is available the tool is missing.
    [probe w cmd arg] is [Some out] when [cmd] is available on host [w] and
    prints [out] for [arg]. *)
Fixpoint Which {World : Type} (probe : World -> string -> string -> option string)
    (w : World) (arg : string) (cmds : list string) : string * string * option error :=
  match cmds with
  | [] => ("", "", Some ToolchainMissing)
  | cmd :: rest =>
    match probe w cmd arg with
    | Some output => (cmd, output, None)
    | None => Which probe w arg rest
    end
  end.

End exec.

(** ** Analyzer options *)

Record Options : Type := {
  Tags : list string;
  AllTags : bool;
  Strategy : string;
  LockfilePath : string;
  ManifestPath : string;
  AllowUnresolved : bool;
  AllowUnresolvedPrefix : string;
  AllowNestedVendor : bool;
  AllowDeepVendor : bool;
  AllowExternalVendor : bool;
  AllowExternalVendorPrefix : string;
  ModulesVendor : bool;
  SkipImportTracing : bool;
  SkipProject : bool
}.

Definition osTags : list string :=
  ["windows"; "linux"; "freebsd"; "android"; "darwin"; "dragonfly"; "nacl";
   "netbsd"; "openbsd"; "plan9"; "solaris"].

Definition archTags : list string :=
  ["386"; "amd64"; "amd64p32"; "arm"; "armbe"; "arm64"; "arm64be"; "ppc64";
   "ppc64le"; "mips"; "mipsle"; "mips64"; "mips64le"; "mips64p32";
   "mips64p32le"; "ppc"; "s390"; "s390x"; "sparc"; "sparc64"].

(** ** The analyzer *)

Module Analyzer.
Section Fields.
Context {RawOptions Resolver Project : Type}.

Record t : Type := {
  Go : gocmd.Go;
  GoVersion : string;
  Module : module.Module RawOptions;
  Options : Options;
  BuildTags : list string;
  resolverCache : gomap.t Resolver;
  projectCache : gomap.t Project
}.

End Fields.
Arguments t : clear implicits.
End Analyzer.

Section Golang.

(** [World] is the state of the host; [RawOptions] the undecoded option
    table of a module; [Resolver] and [Project] the values the two caches
    hold. *)
Context {World RawOptions Resolver Project : Type}.

Abbreviation Module := (module.Module RawOptions).
Abbreviation Analyzer := (Analyzer.t RawOptions Resolver Project).

(** The operations the file calls in other packages.  Each reads or acts on
    the world; the methods of [gocmd.Go] read the handle they are called
    on. *)
Record Host : Type := {
  (* mapstructure.Decode(m.Options, &options) *)
  mapstructure_Decode : RawOptions -> Options * option error;
  (* os.Getenv(name) *)
  os_Getenv : World -> string -> string;
  (* exec.Which(arg, cmds...) *)
  exec_Which : World -> string -> list string -> string * string * option error;
  (* a.Go.Clean(pkgs) *)
  Go_Clean : gocmd.Go -> list string -> World -> option error * World;
  (* a.Go.Build(pkgs) *)
  Go_Build : gocmd.Go -> list string -> World -> option error * World;
  (* a.Go.ListOne(pkg, flags, withVendor) *)
  Go_ListOne : gocmd.Go -> string -> list string -> bool -> World ->
               (gocmd.Package * option error) * World
}.

(** What the file writes to the debug log. *)
Inductive LogEntry : Type :=
| DebugModule (m : Module)
| DebugOptions (options : Options).

(** The surroundings of a call: the host and the log written so far. *)
Record Sys : Type := {
  world : World;
  logged : list LogEntry
}.

Definition log_Debug (e : LogEntry) : M Sys unit :=
  modify (fun s => {| world := world s; logged := logged s ++ [e] |}).

Variable host : Host.

(** [New] constructs an Analyzer.  The result is Go's pair of a pointer and
    an error. *)
Definition New (m : Module) : M Sys (option Analyzer * option error) :=
  _ ← log_Debug (DebugModule m);
  (* Parse and validate options. *)
  let '(options, err) := mapstructure_Decode host (module.Options m) in
  match err with
  | Some e => mret (None, Some e)
  | None =>
    _ ← log_Debug (DebugOptions options);
    (* Construct analyzer. *)
    env ← gets (fun s => os_Getenv host (world s) "FOSSA_GO_CMD");
    '(cmd, version, err) ← gets (fun s => exec_Which host (world s) "version" [env; "go"]);
    match err with
    | Some e => mret (None, Some e)
    | None =>
      (* Compile a list of all user requested build constraints. *)
      let tags := Tags options in
      let tags := if AllTags options then (tags ++ osTags) ++ archTags else tags in
      (* Include the current build setup. *)
      let tags := tags ++ [""] in
      mret (Some {| Analyzer.Go := {| gocmd.Cmd := cmd; gocmd.Dir := module.Dir m |};
                    Analyzer.GoVersion := version;
                    Analyzer.Module := m;
                    Analyzer.Options := options;
                    Analyzer.BuildTags := tags;
                    Analyzer.resolverCache := gomap.make;
                    Analyzer.projectCache := gomap.make |}, None)
    end
  end.

(** The state a method of [*Analyzer] runs in: the analyzer behind the
    receiver and the surroundings. *)
Record Proc : Type := {
  self : Analyzer;
  sys : Sys
}.

(** A call of the build tool acts on the world and on nothing else. *)
Definition on_world {R : Type} (op : World -> R * World) : M Sys R :=
  fun s => let (r, w) := op (world s) in (r, {| world := w; logged := logged s |}).

(** Code that touches the surroundings only, run from a method. *)
Definition in_sys {A : Type} (c : M Sys A) : M Proc A :=
  fun p => let (x, s) := c (sys p) in (x, {| self := self p; sys := s |}).

(** [Clean] runs `go clean $PKG`. *)
Definition Clean : M Proc (option error) :=
  m ← gets (fun p => Analyzer.Module (self p));
  go ← gets (fun p => Analyzer.Go (self p));
  in_sys (on_world (Go_Clean host go [module.BuildTarget m])).

(** [Build] runs `go build $PKG`. *)
Definition Build : M Proc (option error) :=
  m ← gets (fun p => Analyzer.Module (self p));
  go ← gets (fun p => Analyzer.Go (self p));
  in_sys (on_world (Go_Build host go [module.BuildTarget m])).

(** [IsBuilt] runs `go list $PKG` and checks for errors. *)
Definition IsBuilt : M Proc (bool * option error) :=
  m ← gets (fun p => Analyzer.Module (self p));
  _ ← in_sys (log_Debug (DebugModule m));
  go ← gets (fun p => Analyzer.Go (self p));
  vendor ← gets (fun p => ModulesVendor (Analyzer.Options (self p)));
  '(pkg, err) ← in_sys (on_world (Go_ListOne host go (module.BuildTarget m) [] vendor));
  match err with
  | Some e => mret (false, Some e)
  | None => mret (is_nil (gocmd.Error pkg), None)
  end.

End Golang.

Arguments Host : clear implicits.
Arguments LogEntry : clear implicits.
Arguments Sys : clear implicits.
Arguments Proc : clear implicits.

(** ** A reference host

    A small, concrete host on which the definitions run: a machine with an
    environment, a set of installed commands, and a workspace of packages.
    Its build tool behaves like [go]: [clean] removes the build artefacts of
    a package, [build] produces them, and [list] reports on the sources of a
    package, with a per-package error when they do not load. *)

Module Demo.

Record Machine : Type := {
  environ : gmap string string;   (* the process environment *)
  commands : gmap string string;  (* installed commands, with the version each prints *)
  loadable : list string;         (* import paths whose sources load *)
  built : list string             (* import paths with build artefacts *)
}.

(** The values of an option table. *)
Inductive Value : Type :=
| VBool (b : bool)
| VString (s : string)
| VStrings (l : list string).

Definition field_bool (raw : gmap string Value) (k : string) : option bool :=
  match raw !! k with
  | None => Some false
  | Some (VBool b) => Some b
  | Some _ => None
  end.

Definition field_string (raw : gmap string Value) (k : string) : option string :=
  match raw !! k with
  | None => Some ""
  | Some (VString s) => Some s
  | Some _ => None
  end.

Definition field_strings (raw : gmap string Value) (k : string) : option (list string) :=
  match raw !! k with
  | None => Some []
  | Some (VStrings l) => Some l
  | Some _ => None
  end.

Definition zero_Options : Options :=
  {| Tags := []; AllTags := false; Strategy := ""; LockfilePath := "";
     ManifestPath := ""; AllowUnresolved := false; AllowUnresolvedPrefix := "";
     AllowNestedVendor := false; AllowDeepVendor := false;
     AllowExternalVendor := false; AllowExternalVendorPrefix := "";
     ModulesVendor := false; SkipImportTracing := false; SkipProject := false |}.

(** A decoder for option tables: each key named by a [mapstructure] tag of
    [Options] fills its field; a value of the wrong type is an error. *)
Definition decode (raw : gmap string Value) : Options * option error :=
  let decoded : option Options :=
    tags ← field_strings raw "tags";
    all_tags ← field_bool raw "all-tags";
    strategy ← field_string raw "strategy";
    lockfile ← field_string raw "lockfile";
    manifest ← field_string raw "manifest";
    allow_unresolved ← field_bool raw "allow-unresolved";
    allow_unresolved_prefix ← field_string raw "allow-unresolved-prefix";
    allow_nested_vendor ← field_bool raw "allow-nested-vendor";
    allow_deep_vendor ← field_bool raw "allow-deep-vendor";
    allow_external_vendor ← field_bool raw "allow-external-vendor";
    allow_external_vendor_prefix ← field_string raw "allow-external-vendor-prefix";
    modules_vendor ← field_bool raw "modules-vendor";
    skip_tracing ← field_bool raw "skip-tracing";
    skip_project ← field_bool raw "skip-project";
    Some {| Tags := tags; AllTags := all_tags; Strategy := strategy;
            LockfilePath := lockfile; ManifestPath := manifest;
            AllowUnresolved := allow_unresolved;
            AllowUnresolvedPrefix := allow_unresolved_prefix;
            AllowNestedVendor := allow_nested_vendor;
            AllowDeepVendor := allow_deep_vendor;
            AllowExternalVendor := allow_external_vendor;
            AllowExternalVendorPrefix := allow_external_vendor_prefix;
            ModulesVendor := modules_vendor;
            SkipImportTracing := skip_tracing;
            SkipProject := skip_project |} in
  match decoded with
  | Some options => (options, None)
  | None => (zero_Options, Some "unconvertible type")
  end.

Definition getenv (w : Machine) (name : string) : string :=
  default "" (environ w !! name).

(** An installed command prints its version whatever the argument. *)
Definition probe (w : Machine) (cmd arg : string) : option string :=
  commands w !! cmd.

Definition mem (x : string) (l : list string) : bool :=
  bool_decide (x ∈ l).

Definition zero_Package : gocmd.Package :=
  {| gocmd.ImportPath := ""; gocmd.PkgDir := ""; gocmd.IsStandard := false;
     gocmd.IsInternal := false; gocmd.DirectImports := []; gocmd.Error := None |}.

Definition clean (go : gocmd.Go) (pkgs : list string) (w : Machine)
    : option error * Machine :=
  match commands w !! gocmd.Cmd go with
  | None => (Some "executable file not found", w)
  | Some _ =>
    (None, {| environ := environ w; commands := commands w; loadable := loadable w;
              built := List.filter (fun p => negb (mem p pkgs)) (built w) |})
  end.

Definition build (go : gocmd.Go) (pkgs : list string) (w : Machine)
    : option error * Machine :=
  match commands w !! gocmd.Cmd go with
  | None => (Some "executable file not found", w)
  | Some _ =>
    if forallb (fun p => mem p (loadable w)) pkgs
    then (None, {| environ := environ w; commands := commands w;
                   loadable := loadable w; built := pkgs ++ built w |})
    else (Some "build failed", w)
  end.

Definition listOne (go : gocmd.Go) (pkg : string) (flags : list string)
    (withVendor : bool) (w : Machine) : (gocmd.Package * option error) * Machine :=
  match commands w !! gocmd.Cmd go with
  | None => ((zero_Package, Some "executable file not found"), w)
  | Some _ =>
    (({| gocmd.ImportPath := pkg; gocmd.PkgDir := gocmd.Dir go;
         gocmd.IsStandard := false; gocmd.IsInternal := false;
         gocmd.DirectImports := [];
         gocmd.Error := if mem pkg (loadable w) then None
                        else Some "cannot find package" |}, None), w)
  end.

Definition host : Host Machine (gmap string Value) :=
  {| mapstructure_Decode := decode;
     os_Getenv := getenv;
     exec_Which := exec.Which probe;
     Go_Clean := clean;
     Go_Build := build;
     Go_ListOne := listOne |}.

(** Resolvers and projects play no part in what follows. *)
Abbreviation Analyzer := (Analyzer.t (gmap string Value) unit unit).

(** A machine with [go] installed and the package [example.org/app] in its
    workspace. *)
Definition laptop : Machine :=
  {| environ := ∅;
     commands := {[ "go" := "go version go1.12 linux/amd64" ]};
     loadable := ["example.org/app"];
     built := [] |}.

(** The same machine with another command configured for the tool. *)
Definition laptop_custom : Machine :=
  {| environ := {[ "FOSSA_GO_CMD" := "go1.11" ]};
     commands := {[ "go" := "go version go1.12 linux/amd64";
                    "go1.11" := "go version go1.11 linux/amd64" ]};
     loadable := ["example.org/app"];
     built := [] |}.

(** A machine without the tool. *)
Definition bare : Machine :=
  {| environ := ∅; commands := ∅; loadable := []; built := [] |}.

Definition boot (w : Machine) : Sys Machine (gmap string Value) :=
  {| world := w; logged := [] |}.

Definition app (options : gmap string Value) : module.Module (gmap string Value) :=
  {| module.Dir := "/src/example.org/app";
     module.BuildTarget := "example.org/app";
     module.Options := options |}.

(** [all-tags: true] and no tags of the user's own. *)
Definition app_all_tags : module.Module (gmap string Value) :=
  app {[ "all-tags" := VBool true ]}.

(** Two tags of the user's own. *)
Definition app_tagged : module.Module (gmap string Value) :=
  app {[ "tags" := VStrings ["integration"; "cgo"] ]}.

(** An option of the wrong type. *)
Definition app_bad_options : module.Module (gmap string Value) :=
  app {[ "all-tags" := VString "yes" ]}.

(** The analyzer [New] is to build for [app_tagged] on [laptop]. *)
Definition app_analyzer : Analyzer :=
  {| Analyzer.Go := {| gocmd.Cmd := "go"; gocmd.Dir := "/src/example.org/app" |};
     Analyzer.GoVersion := "go version go1.12 linux/amd64";
     Analyzer.Module := app_tagged;
     Analyzer.Options :=
       {| Tags := ["integration"; "cgo"]; AllTags := false; Strategy := "";
          LockfilePath := ""; ManifestPath := ""; AllowUnresolved := false;
          AllowUnresolvedPrefix := ""; AllowNestedVendor := false;
          AllowDeepVendor := false; AllowExternalVendor := false;
          AllowExternalVendorPrefix := ""; ModulesVendor := false;
          SkipImportTracing := false; SkipProject := false |};
     Analyzer.BuildTags := ["integration"; "cgo"; ""];
     Analyzer.resolverCache := Some ∅;
     Analyzer.projectCache := Some ∅ |}.

(** The analyzer [New] is to build for [app_all_tags] on [laptop_custom]:
    thirty-two worlds. *)
Definition all_tags_analyzer : Analyzer :=
  {| Analyzer.Go := {| gocmd.Cmd := "go1.11"; gocmd.Dir := "/src/example.org/app" |};
     Analyzer.GoVersion := "go version go1.11 linux/amd64";
     Analyzer.Module := app_all_tags;
     Analyzer.Options :=
       {| Tags := []; AllTags := true; Strategy := "";
          LockfilePath := ""; ManifestPath := ""; AllowUnresolved := false;
          AllowUnresolvedPrefix := ""; AllowNestedVendor := false;
          AllowDeepVendor := false; AllowExternalVendor := false;
          AllowExternalVendorPrefix := ""; ModulesVendor := false;
          SkipImportTracing := false; SkipProject := false |};
     Analyzer.BuildTags :=
       ["windows"; "linux"; "freebsd"; "android"; "darwin"; "dragonfly"; "nacl";
        "netbsd"; "openbsd"; "plan9"; "solaris";
        "386"; "amd64"; "amd64p32"; "arm"; "armbe"; "arm64"; "arm64be"; "ppc64";
        "ppc64le"; "mips"; "mipsle"; "mips64"; "mips64le"; "mips64p32";
        "mips64p32le"; "ppc"; "s390"; "s390x"; "sparc"; "sparc64";
        ""];
     Analyzer.resolverCache := Some ∅;
     Analyzer.projectCache := Some ∅ |}.

(** Every fixed tag and the two tags of the user's own. *)
Definition app_tagged_all : module.Module (gmap string Value) :=
  app {[ "tags" := VStrings ["integration"; "cgo"]; "all-tags" := VBool true ]}.

(** The analyzer [New] builds for a module on a machine, if any. *)
Definition analyzer_of (m : module.Module (gmap string Value)) (w : Machine)
    : option Analyzer :=
  fst (fst (New host m (boot w))).

(** The state in which the methods of that analyzer run. *)
Definition proc_of (a : Analyzer) (w : Machine) : Proc Machine (gmap string Value) unit unit :=
  {| self := a; sys := boot w |}.

(** The analyzer [New] builds, for the modules known to get one. *)
Definition built_for (m : module.Module (gmap string Value)) (w : Machine) : Analyzer :=
  default app_analyzer (analyzer_of m w).

End Demo.

(** ** Reading the claims

    The pairs of an operating system and an architecture, and what it takes
    for a list of worlds to hold the whole product: a world of its own for
    each pair. *)

Definition os_arch_pairs : list (string * string) :=
  p ← osTags; (fun q => (p, q)) <$> archTags.

Definition covers_os_arch_product (worlds : list string) : Prop :=
  ∃ world_of : string * string -> string,
    (∀ p q, p ∈ os_arch_pairs -> q ∈ os_arch_pairs -> world_of p = world_of q -> p = q) ∧
    (∀ p, p ∈ os_arch_pairs -> world_of p ∈ worlds).

(** * Properties *)

Section Properties.
Context {World RawOptions Resolver Project : Type}.
Variable host : Host World RawOptions.

Abbreviation Module := (module.Module RawOptions).
Abbreviation Analyzer := (Analyzer.t RawOptions Resolver Project).
Abbreviation Sys := (Sys World RawOptions).
Abbreviation Proc := (Proc World RawOptions Resolver Project).

(** The command [New] asks [exec.Which] for, on the world of [s]. *)
Definition located (s : Sys) : string * string * option error :=
  exec_Which host (world s) "version" [os_Getenv host (world s) "FOSSA_GO_CMD"; "go"].

(** What the tool lists for the target of the analyzer in state [p], under
    the host world (no flags). *)
Definition listed (p : Proc) : gocmd.Package * option error :=
  fst (Go_ListOne host (Analyzer.Go (self p))
         (module.BuildTarget (Analyzer.Module (self p))) []
         (ModulesVendor (Analyzer.Options (self p))) (world (sys p))).



(** Two analyzers with the same seven fields. *)
Definition same_fields (a b : Analyzer) : Prop :=
  Analyzer.Go a = Analyzer.Go b ∧
  Analyzer.GoVersion a = Analyzer.GoVersion b ∧
  Analyzer.Module a = Analyzer.Module b ∧
  Analyzer.Options a = Analyzer.Options b ∧
  Analyzer.BuildTags a = Analyzer.BuildTags b ∧
  Analyzer.resolverCache a = Analyzer.resolverCache b ∧
  Analyzer.projectCache a = Analyzer.projectCache b.


(** The calls a user makes on an analyzer, and a run of them in order, each
    result dropped. *)
Inductive Call : Type :=
| CallClean
| CallBuild
| CallIsBuilt.

Definition is_IsBuilt (c : Call) : bool :=
  match c with
  | CallIsBuilt => true
  | _ => false
  end.

Definition call (c : Call) : M Proc unit :=
  match c with
  | CallClean => _ ← Clean host; mret tt
  | CallBuild => _ ← Build host; mret tt
  | CallIsBuilt => _ ← IsBuilt host; mret tt
  end.

Fixpoint calls (cs : list Call) : M Proc unit :=
  match cs with
  | [] => mret tt
  | c :: rest => _ ← call c; calls rest
  end.

(** Running monadic code: unfold the plumbing down to pairs. *)
Ltac run_M :=
  unfold mbind, M_bind, mret, M_ret, gets, modify, in_sys, on_world, log_Debug; cbn.

(** What a successful [New] has done: the options decoded, a command was
    located, and every field is as the struct literal sets it. *)
Lemma New_Some (m : Module) (s s' : Sys) (a : Analyzer) (err : option error) :
  New host m s = ((Some a, err), s') ->
  ∃ options cmd version,
    mapstructure_Decode host (module.Options m) = (options, None) ∧
    located s = (cmd, version, None) ∧
    err = None ∧
    Analyzer.Go a = {| gocmd.Cmd := cmd; gocmd.Dir := module.Dir m |} ∧
    Analyzer.GoVersion a = version ∧
    Analyzer.Module a = m ∧
    Analyzer.Options a = options ∧
    Analyzer.BuildTags a =
      (if AllTags options then (Tags options ++ osTags) ++ archTags else Tags options) ++ [""] ∧
    Analyzer.resolverCache a = gomap.make ∧
    Analyzer.projectCache a = gomap.make.
Proof.
  unfold New, located. run_M.
  destruct (mapstructure_Decode host (module.Options m)) as [options [e|]]; cbn.
  - intros H; inversion H.
  - destruct (exec_Which host (world s) "version" _) as [[cmd version] [e|]]; cbn.
    + intros H; inversion H.
    + intros H; inversion H; subst; cbn. exists options, cmd, version. repeat split.
Qed.

(** [New] does return an analyzer once the options decode and a command is
    located. *)
Lemma New_succeeds (m : Module) (s : Sys) (options : Options) (cmd version : string) :
  mapstructure_Decode host (module.Options m) = (options, None) ->
  located s = (cmd, version, None) ->
  ∃ (a : Analyzer) (s' : Sys),
    New host m s = ((Some a, None), s') ∧
    world s' = world s ∧
    Analyzer.Go a = {| gocmd.Cmd := cmd; gocmd.Dir := module.Dir m |} ∧
    Analyzer.GoVersion a = version ∧
    Analyzer.Options a = options.
Proof.
  unfold located. intros Hdec Hwhich.
  unfold New. run_M.
  rewrite Hdec. cbn. rewrite Hwhich. cbn.
  eexists _, _. repeat split.
Qed.

(** The two early returns of [New]: it hands back [nil] and the error. *)
Lemma New_decode_error (m : Module) (s : Sys) (options : Options) (e : error) :
  mapstructure_Decode host (module.Options m) = (options, Some e) ->
  fst (New (Resolver := Resolver) (Project := Project) host m s) = (None, Some e).
Proof.
  intros Hdec.
  unfold New. run_M.
  rewrite Hdec. reflexivity.
Qed.

Lemma New_which_error (m : Module) (s : Sys) (options : Options)
    (cmd version : string) (e : error) :
  mapstructure_Decode host (module.Options m) = (options, None) ->
  located s = (cmd, version, Some e) ->
  fst (New (Resolver := Resolver) (Project := Project) host m s) = (None, Some e).
Proof.
  unfold located. intros Hdec Hwhich.
  unfold New. run_M.
  rewrite Hdec. cbn. rewrite Hwhich. reflexivity.
Qed.

(** The methods unfolded: each is one call of the tool on the world. *)
Lemma Clean_unfold (p : Proc) :
  Clean host p =
  let r := Go_Clean host (Analyzer.Go (self p))
             [module.BuildTarget (Analyzer.Module (self p))] (world (sys p)) in
  (fst r, {| self := self p;
             sys := {| world := snd r; logged := logged (sys p) |} |}).
Proof.
  unfold Clean. run_M.
  destruct (Go_Clean _ _ _ _); reflexivity.
Qed.

Lemma Build_unfold (p : Proc) :
  Build host p =
  let r := Go_Build host (Analyzer.Go (self p))
             [module.BuildTarget (Analyzer.Module (self p))] (world (sys p)) in
  (fst r, {| self := self p;
             sys := {| world := snd r; logged := logged (sys p) |} |}).
Proof.
  unfold Build. run_M.
  destruct (Go_Build _ _ _ _); reflexivity.
Qed.

Lemma IsBuilt_unfold (p : Proc) :
  IsBuilt host p =
  let r := Go_ListOne host (Analyzer.Go (self p))
             (module.BuildTarget (Analyzer.Module (self p))) []
             (ModulesVendor (Analyzer.Options (self p))) (world (sys p)) in
  (match snd (fst r) with
   | Some e => (false, Some e)
   | None => (is_nil (gocmd.Error (fst (fst r))), None)
   end,
   {| self := self p;
      sys := {| world := snd r;
                logged := logged (sys p) ++ [DebugModule (Analyzer.Module (self p))] |} |}).
Proof.
  unfold IsBuilt. run_M.
  destruct (Go_ListOne _ _ _ _ _ _) as [[pkg [e|]] w]; reflexivity.
Qed.

(** A list that holds a world of its own for each pair is at least as long
    as the product. *)
Lemma covers_os_arch_product_length (worlds : list string) :
  covers_os_arch_product worlds -> 220 <= length worlds.
Proof.
  intros (world_of & Hinj & Hin).
  assert (Hnodup : NoDup os_arch_pairs) by (apply (bool_decide_unpack _); vm_compute; exact I).
  assert (Hlen : length (world_of <$> os_arch_pairs) = 220)
    by (rewrite length_fmap; reflexivity).
  rewrite <- Hlen. apply submseteq_length, NoDup_submseteq.
  - apply NoDup_fmap_2_strong; assumption.
  - intros w Hw. apply list_elem_of_fmap in Hw as (pr & -> & Hpr). auto.
Qed.

(** [exec.Which] on its candidates. *)
Lemma Which_first (probe : World -> string -> string -> option string)
    (w : World) (arg cmd output : string) (rest : list string) :
  probe w cmd arg = Some output ->
  exec.Which probe w arg (cmd :: rest) = (cmd, output, None).
Proof. intros H. cbn. rewrite H. reflexivity. Qed.

Lemma Which_skip (probe : World -> string -> string -> option string)
    (w : World) (arg cmd : string) (rest : list string) :
  probe w cmd arg = None ->
  exec.Which probe w arg (cmd :: rest) = exec.Which probe w arg rest.
Proof. intros H. cbn. rewrite H. reflexivity. Qed.

Lemma Which_missing (probe : World -> string -> string -> option string)
    (w : World) (arg : string) (cmds : list string) :
  Forall (fun cmd => probe w cmd arg = None) cmds ->
  exec.Which probe w arg cmds = ("", "", Some exec.ToolchainMissing).
Proof.
  induction 1 as [|cmd rest Hcmd _ IH]; [reflexivity|].
  rewrite Which_skip by assumption. exact IH.
Qed.

(** ** The worlds [New] compiles *)

(** C1 (amended): when [all-tags] is set, the worlds [New] compiles are the
    tags of the user, then every name of the fixed OS list, then every name
    of the fixed architecture list, then the host world: the union of the
    two lists, one world per name, and not a world per pair. *)
Theorem New_all_tags_worlds (m : Module) (s s' : Sys) (a : Analyzer) (err : option error) :
  New host m s = ((Some a, err), s') ->
  AllTags (Analyzer.Options a) = true ->
  Analyzer.Options a = fst (mapstructure_Decode host (module.Options m)) ∧
  Analyzer.BuildTags a = Tags (Analyzer.Options a) ++ osTags ++ archTags ++ [""] ∧
  length (Analyzer.BuildTags a) = length (Tags (Analyzer.Options a)) + 11 + 20 + 1.
Proof.
  intros Hnew Hall.
  apply New_Some in Hnew
    as (options & cmd & version & Hdec & _ & _ & _ & _ & _ & Hopt & Htags & _).
  rewrite Hopt in *. rewrite Hdec, Htags, Hall. cbn [fst].
  split; [reflexivity|]. split.
  - rewrite <- !app_assoc. reflexivity.
  - rewrite !length_app. cbn. lia.
Qed.

(** C2: whatever [tags] and [all-tags] say, the worlds of an analyzer that
    [New] returns end with the empty string, the host world. *)
Theorem New_appends_host_world (m : Module) (s s' : Sys) (a : Analyzer) (err : option error) :
  New host m s = ((Some a, err), s') ->
  last (Analyzer.BuildTags a) = Some "" ∧
  ∃ worlds, Analyzer.BuildTags a = worlds ++ [""] ∧
            Tags (Analyzer.Options a) `prefix_of` worlds.
Proof.
  intros Hnew.
  apply New_Some in Hnew
    as (options & cmd & version & _ & _ & _ & _ & _ & _ & Hopt & Htags & _).
  rewrite Htags, Hopt. split; [apply last_snoc|].
  eexists. split; [reflexivity|].
  destruct (AllTags options).
  - rewrite <- app_assoc. apply prefix_app_r. reflexivity.
  - reflexivity.
Qed.

(** C4: when [all-tags] is not set, the worlds [New] compiles are exactly
    the tags of the user followed by the host world. *)
Theorem New_user_tags_worlds (m : Module) (s s' : Sys) (a : Analyzer) (err : option error) :
  New host m s = ((Some a, err), s') ->
  AllTags (Analyzer.Options a) = false ->
  Analyzer.Options a = fst (mapstructure_Decode host (module.Options m)) ∧
  Analyzer.BuildTags a = Tags (Analyzer.Options a) ++ [""].
Proof.
  intros Hnew Hall.
  apply New_Some in Hnew
    as (options & cmd & version & Hdec & _ & _ & _ & _ & _ & Hopt & Htags & _).
  rewrite Hopt in *. rewrite Hdec, Htags, Hall. split; reflexivity.
Qed.

(** ** Locating the tool *)

(** C5: when [exec.Which] cannot locate the build tool, [New] returns an
    error and no analyzer, whatever the module: the error of [exec.Which]
    when the options decoded, that of the decoder when they did not. *)
Theorem New_tool_missing (m : Module) (s : Sys) (cmd version : string) (e : error) :
  located s = (cmd, version, Some e) ->
  ∃ e', fst (New (Resolver := Resolver) (Project := Project) host m s) = (None, Some e') ∧
        (snd (mapstructure_Decode host (module.Options m)) = None -> e' = e).
Proof.
  intros Hwhich.
  destruct (mapstructure_Decode host (module.Options m)) as [options [e0|]] eqn:Hdec.
  - exists e0. split; [|discriminate]. eapply New_decode_error; eassumption.
  - exists e. split; [|reflexivity]. eapply New_which_error; eassumption.
Qed.

(** C7: with [exec.Which] as the specification has it, [New] takes the
    command from the environment: the command [FOSSA_GO_CMD] names when it
    is available, with the version it reports, and [go] otherwise; when one
    of the two is available, a tool is located and [New] returns an
    analyzer. *)
Theorem New_selects_command (probe : World -> string -> string -> option string)
    (m : Module) (s : Sys) (options : Options) :
  (∀ w arg cmds, exec_Which host w arg cmds = exec.Which probe w arg cmds) ->
  mapstructure_Decode host (module.Options m) = (options, None) ->
  is_Some (probe (world s) (os_Getenv host (world s) "FOSSA_GO_CMD") "version") ∨
  is_Some (probe (world s) "go" "version") ->
  ∃ (a : Analyzer) (s' : Sys),
    New host m s = ((Some a, None), s') ∧
    snd (located s) = None ∧
    match probe (world s) (os_Getenv host (world s) "FOSSA_GO_CMD") "version" with
    | Some version =>
      gocmd.Cmd (Analyzer.Go a) = os_Getenv host (world s) "FOSSA_GO_CMD" ∧
      Analyzer.GoVersion a = version
    | None =>
      gocmd.Cmd (Analyzer.Go a) = "go" ∧
      probe (world s) "go" "version" = Some (Analyzer.GoVersion a)
    end.
Proof.
  intros Hwhich Hdec Havail.
  destruct (probe (world s) (os_Getenv host (world s) "FOSSA_GO_CMD") "version")
    as [version|] eqn:Henv.
  - assert (Hloc : located s = (os_Getenv host (world s) "FOSSA_GO_CMD", version, None)).
    { unfold located. rewrite Hwhich. apply Which_first, Henv. }
    destruct (New_succeeds m s options _ _ Hdec Hloc) as (a & s' & Hnew & _ & Hgo & Hver & _).
    exists a, s'. rewrite Hloc, Hgo, Hver. repeat split; assumption.
  - destruct Havail as [[? Hcontra]|[version Hgocmd]]; [discriminate|].
    assert (Hloc : located s = ("go", version, None)).
    { unfold located. rewrite Hwhich, Which_skip by assumption. apply Which_first, Hgocmd. }
    destruct (New_succeeds m s options _ _ Hdec Hloc) as (a & s' & Hnew & _ & Hgo & Hver & _).
    exists a, s'. rewrite Hloc, Hgo, Hver, Hgocmd. repeat split; assumption.
Qed.

(** ** The caches *)

(** C9: an analyzer that [New] returns has both caches allocated and empty:
    no directory is bound in either, and a first insertion goes through. *)
Theorem New_caches_empty (m : Module) (s s' : Sys) (a : Analyzer) (err : option error) :
  New host m s = ((Some a, err), s') ->
  (Analyzer.resolverCache a = Some ∅ ∧ Analyzer.projectCache a = Some ∅) ∧
  (gomap.len (Analyzer.resolverCache a) = 0 ∧ gomap.len (Analyzer.projectCache a) = 0) ∧
  (∀ dir, gomap.get (Analyzer.resolverCache a) dir = None ∧
          gomap.get (Analyzer.projectCache a) dir = None) ∧
  (∀ dir (r : Resolver),
     gomap.set (Analyzer.resolverCache a) dir r = Some (Some {[ dir := r ]})) ∧
  (∀ dir (pr : Project),
     gomap.set (Analyzer.projectCache a) dir pr = Some (Some {[ dir := pr ]})).
Proof.
  intros Hnew.
  apply New_Some in Hnew
    as (options & cmd & version & _ & _ & _ & _ & _ & _ & _ & _ & Hres & Hproj).
  rewrite Hres, Hproj. unfold gomap.make, gomap.len, gomap.get, gomap.set.
  split; [split; reflexivity|]. split; [split; apply map_size_empty|].
  split; [intros dir; split; apply lookup_empty|].
  split; intros dir v; rewrite insert_empty; reflexivity.
Qed.

(** ** The build operations *)

(** C3: when [ListOne] succeeds for the target under the host world,
    [IsBuilt] returns true exactly when the package carries no error of its
    own; when [ListOne] fails, [IsBuilt] returns false and that error. *)
Theorem IsBuilt_reports_listing (p : Proc) (pkg : gocmd.Package) (err : option error) :
  listed p = (pkg, err) ->
  match err with
  | None =>
    snd (fst (IsBuilt host p)) = None ∧
    (fst (fst (IsBuilt host p)) = true ↔ gocmd.Error pkg = None)
  | Some e => fst (IsBuilt host p) = (false, Some e)
  end.
Proof.
  unfold listed. intros Hlist. rewrite IsBuilt_unfold. cbn zeta. cbn [fst snd].
  rewrite Hlist. cbn [fst snd]. destruct err as [e|]; [reflexivity|].
  cbn [fst snd]. split; [reflexivity|].
  destruct (gocmd.Error pkg); cbn; split; intros H; (reflexivity || discriminate).
Qed.

(** C6: [Clean] and [Build] hand the singleton list of the target to the
    clean and the build operation of the tool: they return what it returns
    and leave the world as it leaves it, with the analyzer and the log
    untouched. *)
Theorem Clean_Build_delegate (p : Proc) :
  (fst (Clean host p) =
     fst (Go_Clean host (Analyzer.Go (self p))
            [module.BuildTarget (Analyzer.Module (self p))] (world (sys p))) ∧
   world (sys (snd (Clean host p))) =
     snd (Go_Clean host (Analyzer.Go (self p))
            [module.BuildTarget (Analyzer.Module (self p))] (world (sys p))) ∧
   self (snd (Clean host p)) = self p ∧
   logged (sys (snd (Clean host p))) = logged (sys p)) ∧
  (fst (Build host p) =
     fst (Go_Build host (Analyzer.Go (self p))
            [module.BuildTarget (Analyzer.Module (self p))] (world (sys p))) ∧
   world (sys (snd (Build host p))) =
     snd (Go_Build host (Analyzer.Go (self p))
            [module.BuildTarget (Analyzer.Module (self p))] (world (sys p))) ∧
   self (snd (Build host p)) = self p ∧
   logged (sys (snd (Build host p))) = logged (sys p)).
Proof.
  rewrite Clean_unfold, Build_unfold. cbn. repeat split.
Qed.


(** C10: [Clean], [Build] and [IsBuilt] leave the analyzer as it was: the
    tool handle, the version, the module, the options, the worlds and the
    two caches are after the call what they were before. *)
Theorem methods_keep_analyzer (p : Proc) :
  (self (snd (Clean host p)) = self p ∧ same_fields (self (snd (Clean host p))) (self p)) ∧
  (self (snd (Build host p)) = self p ∧ same_fields (self (snd (Build host p))) (self p)) ∧
  (self (snd (IsBuilt host p)) = self p ∧ same_fields (self (snd (IsBuilt host p))) (self p)).
Proof.
  rewrite Clean_unfold, Build_unfold, IsBuilt_unfold. cbn.
  unfold same_fields. repeat split.
Qed.

(** ** More on [New] *)

(** The worlds of an analyzer [New] returns, spelled out. *)
Lemma New_worlds (m : Module) (s s' : Sys) (a : Analyzer) (err : option error) :
  New host m s = ((Some a, err), s') ->
  Analyzer.BuildTags a =
    Tags (Analyzer.Options a) ++
    (if AllTags (Analyzer.Options a) then osTags ++ archTags else []) ++ [""].
Proof.
  intros Hnew.
  apply New_Some in Hnew
    as (options & cmd & version & _ & _ & _ & _ & _ & _ & Hopt & Htags & _).
  rewrite Htags, Hopt. destruct (AllTags options).
  - rewrite <- !app_assoc. reflexivity.
  - reflexivity.
Qed.

(** X1: [New] returns an analyzer with a nil error, or nil with an error;
    never both and never neither. *)
Theorem New_analyzer_xor_error (m : Module) (s : Sys) :
  (is_Some (fst (fst (New (Resolver := Resolver) (Project := Project) host m s))) ∧
   snd (fst (New (Resolver := Resolver) (Project := Project) host m s)) = None) ∨
  (fst (fst (New (Resolver := Resolver) (Project := Project) host m s)) = None ∧
   is_Some (snd (fst (New (Resolver := Resolver) (Project := Project) host m s)))).
Proof.
  destruct (mapstructure_Decode host (module.Options m)) as [options [e|]] eqn:Hdec.
  - right. rewrite (New_decode_error m s options e Hdec). split; [reflexivity|eauto].
  - destruct (located s) as [[cmd version] [e|]] eqn:Hloc.
    + right. rewrite (New_which_error m s options cmd version e Hdec Hloc).
      split; [reflexivity|eauto].
    + left. destruct (New_succeeds m s options cmd version Hdec Hloc)
        as (a & s' & Hnew & _). rewrite Hnew. split; [eauto|reflexivity].
Qed.

(** X2: [New] returns an analyzer exactly when the options decode without
    error and [exec.Which] locates a command. *)
Theorem New_succeeds_iff (m : Module) (s : Sys) :
  is_Some (fst (fst (New (Resolver := Resolver) (Project := Project) host m s))) ↔
  snd (mapstructure_Decode host (module.Options m)) = None ∧ snd (located s) = None.
Proof.
  split.
  - intros [a Ha].
    destruct (New (Resolver := Resolver) (Project := Project) host m s)
      as [[oa err] s'] eqn:Hnew.
    cbn in Ha. subst oa.
    apply New_Some in Hnew as (options & cmd & version & Hdec & Hloc & _).
    rewrite Hdec, Hloc. split; reflexivity.
  - intros [Hdec Hloc].
    destruct (mapstructure_Decode host (module.Options m)) as [options e] eqn:Hd.
    destruct (located s) as [[cmd version] e'] eqn:Hl.
    cbn in Hdec, Hloc. subst e e'.
    destruct (New_succeeds m s options cmd version Hd Hl) as (a & s' & Hnew & _).
    rewrite Hnew. eauto.
Qed.

(** X3: when the options do not decode, [New] returns nil and the
    decoder's error whether or not the tool can be located, with the world
    as it was and the module alone written to the log. *)
Theorem New_decode_error_first (m : Module) (s : Sys) (e : error) :
  snd (mapstructure_Decode host (module.Options m)) = Some e ->
  fst (New (Resolver := Resolver) (Project := Project) host m s) = (None, Some e) ∧
  snd (New (Resolver := Resolver) (Project := Project) host m s)
    = {| world := world s; logged := logged s ++ [DebugModule m] |}.
Proof.
  intros Hdec. unfold New. run_M.
  destruct (mapstructure_Decode host (module.Options m)) as [options e0].
  cbn in Hdec. subst e0. split; reflexivity.
Qed.

(** X4: on every path [New] writes to the log the module it was given,
    then the options once they have decoded, and nothing else. *)
Theorem New_log (m : Module) (s : Sys) :
  logged (snd (New (Resolver := Resolver) (Project := Project) host m s)) =
    logged s ++ DebugModule m ::
      match snd (mapstructure_Decode host (module.Options m)) with
      | None => [DebugOptions (fst (mapstructure_Decode host (module.Options m)))]
      | Some _ => []
      end.
Proof.
  unfold New. run_M.
  destruct (mapstructure_Decode host (module.Options m)) as [options [e|]]; cbn.
  - reflexivity.
  - destruct (exec_Which host (world s) "version" _) as [[cmd version] [e|]]; cbn;
      rewrite <- app_assoc; reflexivity.
Qed.

(** X5: the worlds of an analyzer [New] returns are the tags of the user,
    the names of the two fixed lists when [all-tags] is set, and the host
    world; nothing else is a world. *)
Theorem New_worlds_membership (m : Module) (s s' : Sys) (a : Analyzer)
    (err : option error) (w : string) :
  New host m s = ((Some a, err), s') ->
  (w ∈ Analyzer.BuildTags a ↔
     w ∈ Tags (Analyzer.Options a) ∨
     (AllTags (Analyzer.Options a) = true ∧ (w ∈ osTags ∨ w ∈ archTags)) ∨
     w = "").
Proof.
  intros Hnew. rewrite (New_worlds m s s' a err Hnew).
  rewrite !elem_of_app, list_elem_of_singleton.
  destruct (AllTags (Analyzer.Options a)).
  - rewrite elem_of_app. intuition auto.
  - rewrite elem_of_nil. intuition discriminate.
Qed.

(** X6: [New] does not remove duplicates.  The worlds it compiles are
    pairwise distinct exactly when the tags of the user are, none of them is
    the empty host world, and, with [all-tags] set, none of them is a name of
    the fixed lists. *)
Theorem New_worlds_distinct_iff (m : Module) (s s' : Sys) (a : Analyzer)
    (err : option error) :
  New host m s = ((Some a, err), s') ->
  (NoDup (Analyzer.BuildTags a) ↔
     NoDup (Tags (Analyzer.Options a)) ∧
     ("" ∉ Tags (Analyzer.Options a)) ∧
     (AllTags (Analyzer.Options a) = true ->
      ∀ t, t ∈ Tags (Analyzer.Options a) -> t ∉ osTags ++ archTags)).
Proof.
  intros Hnew. rewrite (New_worlds m s s' a err Hnew).
  assert (Hfixed : NoDup ((osTags ++ archTags) ++ [""]))
    by (apply (bool_decide_unpack _); vm_compute; exact I).
  rewrite NoDup_app. destruct (AllTags (Analyzer.Options a)).
  - split.
    + intros (Hnd & Hdisj & _). split; [exact Hnd|]. split.
      * intros Hin. apply (Hdisj "" Hin). rewrite elem_of_app, list_elem_of_singleton. auto.
      * intros _ t Hin Hfix. apply (Hdisj t Hin). rewrite elem_of_app. auto.
    + intros (Hnd & Hempty & Hfix). split; [exact Hnd|]. split; [|exact Hfixed].
      intros t Hin. rewrite elem_of_app, list_elem_of_singleton.
      intros [Ht| ->]; [exact (Hfix eq_refl t Hin Ht) | exact (Hempty Hin)].
  - cbn [app]. split.
    + intros (Hnd & Hdisj & _). split; [exact Hnd|]. split; [|discriminate].
      intros Hin. apply (Hdisj "" Hin). apply list_elem_of_singleton. reflexivity.
    + intros (Hnd & Hempty & _). split; [exact Hnd|]. split; [|apply NoDup_singleton].
      intros t Hin Ht. apply list_elem_of_singleton in Ht as ->. exact (Hempty Hin).
Qed.

(** X7: setting [all-tags] only adds worlds.  For the same tags of the
    user, the worlds compiled without [all-tags] are, in order, among the
    worlds compiled whatever [all-tags] says. *)
Theorem New_all_tags_only_adds (m1 m2 : Module) (s1 s1' s2 s2' : Sys)
    (a1 a2 : Analyzer) (err1 err2 : option error) :
  New host m1 s1 = ((Some a1, err1), s1') ->
  New host m2 s2 = ((Some a2, err2), s2') ->
  Tags (Analyzer.Options a1) = Tags (Analyzer.Options a2) ->
  AllTags (Analyzer.Options a1) = false ->
  Analyzer.BuildTags a1 `sublist_of` Analyzer.BuildTags a2.
Proof.
  intros H1 H2 Htags Hall.
  rewrite (New_worlds m1 s1 s1' a1 err1 H1), (New_worlds m2 s2 s2' a2 err2 H2).
  rewrite Hall, Htags. apply sublist_app; [reflexivity|].
  apply sublist_inserts_l. reflexivity.
Qed.

(** ** More on the build operations *)

(** X8: [IsBuilt] asks about the host world only.  Two analyzers with the
    same tool handle, build target and [modules-vendor] option get the same
    answer in the same world, whatever their tags, worlds and caches. *)
Theorem IsBuilt_ignores_worlds (p1 p2 : Proc) :
  Analyzer.Go (self p1) = Analyzer.Go (self p2) ->
  module.BuildTarget (Analyzer.Module (self p1))
    = module.BuildTarget (Analyzer.Module (self p2)) ->
  ModulesVendor (Analyzer.Options (self p1))
    = ModulesVendor (Analyzer.Options (self p2)) ->
  world (sys p1) = world (sys p2) ->
  fst (IsBuilt host p1) = fst (IsBuilt host p2) ∧
  world (sys (snd (IsBuilt host p1))) = world (sys (snd (IsBuilt host p2))).
Proof.
  intros Hgo Htarget Hvendor Hworld.
  rewrite !IsBuilt_unfold. cbn zeta. cbn [fst snd sys world].
  rewrite Hgo, Htarget, Hvendor, Hworld. split; reflexivity.
Qed.

(** One call keeps the analyzer and logs the module when it is [IsBuilt]. *)
Lemma call_frame (c : Call) (p : Proc) :
  self (snd (call c p)) = self p ∧
  logged (sys (snd (call c p))) =
    logged (sys p) ++
    (if is_IsBuilt c then [DebugModule (Analyzer.Module (self p))] else []).
Proof.
  destruct c; unfold call, mbind, M_bind, mret, M_ret.
  - rewrite Clean_unfold. cbn. rewrite app_nil_r. split; reflexivity.
  - rewrite Build_unfold. cbn. rewrite app_nil_r. split; reflexivity.
  - rewrite IsBuilt_unfold. cbn. split; reflexivity.
Qed.

(** X9: however many times and in whatever order [Clean], [Build] and
    [IsBuilt] are called, the analyzer stays as it was, and the log grows by
    one entry, the module, for each call of [IsBuilt]. *)
Theorem calls_keep_analyzer (cs : list Call) (p : Proc) :
  self (snd (calls cs p)) = self p ∧
  logged (sys (snd (calls cs p))) =
    logged (sys p) ++
    replicate (length (List.filter is_IsBuilt cs)) (DebugModule (Analyzer.Module (self p))).
Proof.
  revert p. induction cs as [|c rest IH]; intros p.
  - cbn. rewrite app_nil_r. split; reflexivity.
  - cbn [calls]. unfold mbind, M_bind.
    destruct (call_frame c p) as [Hself Hlog].
    destruct (call c p) as [[] p1]. cbn [snd] in Hself, Hlog.
    destruct (IH p1) as [IHself IHlog].
    rewrite IHself, IHlog, Hself, Hlog. split; [reflexivity|].
    cbn [List.filter]. destruct (is_IsBuilt c); cbn.
    + rewrite <- app_assoc. reflexivity.
    + rewrite app_nil_r. reflexivity.
Qed.

(** ** [New] and then the build operations *)

(** X10: on the analyzer [New] returns, [IsBuilt] lists the build target of
    the module, with the command [exec.Which] located, in the directory of
    the module, under the [modules-vendor] option as decoded. *)
Theorem New_then_IsBuilt (m : Module) (s s' : Sys) (a : Analyzer) (err : option error)
    (sys0 : Sys) :
  New host m s = ((Some a, err), s') ->
  listed {| self := a; sys := sys0 |} =
    fst (Go_ListOne host
           {| gocmd.Cmd := fst (fst (located s)); gocmd.Dir := module.Dir m |}
           (module.BuildTarget m) []
           (ModulesVendor (fst (mapstructure_Decode host (module.Options m))))
           (world sys0)) ∧
  fst (IsBuilt host {| self := a; sys := sys0 |}) =
    match snd (listed {| self := a; sys := sys0 |}) with
    | Some e => (false, Some e)
    | None => (is_nil (gocmd.Error (fst (listed {| self := a; sys := sys0 |}))), None)
    end.
Proof.
  intros Hnew.
  apply New_Some in Hnew
    as (options & cmd & version & Hdec & Hloc & _ & Hgo & _ & Hmod & Hopt & _).
  split.
  - unfold listed. cbn [self sys]. rewrite Hgo, Hmod, Hopt, Hdec, Hloc. reflexivity.
  - rewrite IsBuilt_unfold. reflexivity.
Qed.

(** X11: on the analyzer [New] returns, [Clean] and [Build] run the tool
    with the command [exec.Which] located, in the directory of the module,
    on the build target of the module alone. *)
Theorem New_then_Clean_Build (m : Module) (s s' : Sys) (a : Analyzer) (err : option error)
    (sys0 : Sys) :
  New host m s = ((Some a, err), s') ->
  fst (Clean host {| self := a; sys := sys0 |}) =
    fst (Go_Clean host
           {| gocmd.Cmd := fst (fst (located s)); gocmd.Dir := module.Dir m |}
           [module.BuildTarget m] (world sys0)) ∧
  fst (Build host {| self := a; sys := sys0 |}) =
    fst (Go_Build host
           {| gocmd.Cmd := fst (fst (located s)); gocmd.Dir := module.Dir m |}
           [module.BuildTarget m] (world sys0)).
Proof.
  intros Hnew.
  apply New_Some in Hnew
    as (options & cmd & version & _ & Hloc & _ & Hgo & _ & Hmod & _).
  rewrite Clean_unfold, Build_unfold. cbn zeta. cbn [fst self sys].
  rewrite Hgo, Hmod, Hloc. split; reflexivity.
Qed.

End Properties.

(** * The definitions at work on the reference host *)

Example New_app_tagged :
  fst (New Demo.host Demo.app_tagged (Demo.boot Demo.laptop))
  = (Some Demo.app_analyzer, None).
Proof. reflexivity. Qed.

Example New_app_all_tags :
  fst (New Demo.host Demo.app_all_tags (Demo.boot Demo.laptop_custom))
  = (Some Demo.all_tags_analyzer, None).
Proof. reflexivity. Qed.

Example New_app_bad_options :
  fst (New (Resolver := unit) (Project := unit)
         Demo.host Demo.app_bad_options (Demo.boot Demo.laptop))
  = (None, Some "unconvertible type").
Proof. reflexivity. Qed.

Example New_logs :
  logged (snd (New (Resolver := unit) (Project := unit)
                 Demo.host Demo.app_tagged (Demo.boot Demo.laptop)))
  = [DebugModule Demo.app_tagged;
     DebugOptions (Analyzer.Options Demo.app_analyzer)].
Proof. reflexivity. Qed.

Example Build_app :
  Demo.built (world (sys (snd (Build Demo.host
                            (Demo.proc_of Demo.app_analyzer Demo.laptop)))))
  = ["example.org/app"].
Proof. reflexivity. Qed.

Example IsBuilt_without_tool :
  fst (IsBuilt Demo.host (Demo.proc_of Demo.app_analyzer Demo.bare))
  = (false, Some "executable file not found").
Proof. reflexivity. Qed.

Example os_arch_pairs_count : length os_arch_pairs = 220.
Proof. reflexivity. Qed.

(** * The claims on the reference host *)

(** C1, as first stated, fails: with [all-tags] set and no tags of the
    user's own, [New] compiles thirty-two worlds, one per OS name, one per
    architecture name and the host; the product has 220 pairs, so the list
    cannot hold a world for each. *)
Lemma all_tags_worlds_not_product :
  fst (New Demo.host Demo.app_all_tags (Demo.boot Demo.laptop_custom))
    = (Some Demo.all_tags_analyzer, None) ∧
  AllTags (Analyzer.Options Demo.all_tags_analyzer) = true ∧
  length (Analyzer.BuildTags Demo.all_tags_analyzer) = 32 ∧
  ¬ covers_os_arch_product (Analyzer.BuildTags Demo.all_tags_analyzer).
Proof.
  repeat split.
  intros Hcov. apply covers_os_arch_product_length in Hcov.
  cbn in Hcov. lia.
Qed.

Lemma New_all_tags_worlds_witness :
  Analyzer.Options Demo.all_tags_analyzer
    = fst (mapstructure_Decode Demo.host (module.Options Demo.app_all_tags)) ∧
  Analyzer.BuildTags Demo.all_tags_analyzer
    = Tags (Analyzer.Options Demo.all_tags_analyzer) ++ osTags ++ archTags ++ [""] ∧
  length (Analyzer.BuildTags Demo.all_tags_analyzer)
    = length (Tags (Analyzer.Options Demo.all_tags_analyzer)) + 11 + 20 + 1.
Proof.
  eapply (New_all_tags_worlds Demo.host Demo.app_all_tags (Demo.boot Demo.laptop_custom));
    reflexivity.
Defined.

Lemma New_appends_host_world_witness :
  last (Analyzer.BuildTags Demo.app_analyzer) = Some "" ∧
  ∃ worlds, Analyzer.BuildTags Demo.app_analyzer = worlds ++ [""] ∧
            Tags (Analyzer.Options Demo.app_analyzer) `prefix_of` worlds.
Proof.
  eapply (New_appends_host_world Demo.host Demo.app_tagged (Demo.boot Demo.laptop));
    reflexivity.
Defined.

Lemma New_user_tags_worlds_witness :
  Analyzer.Options Demo.app_analyzer
    = fst (mapstructure_Decode Demo.host (module.Options Demo.app_tagged)) ∧
  Analyzer.BuildTags Demo.app_analyzer = ["integration"; "cgo"] ++ [""].
Proof.
  eapply (New_user_tags_worlds Demo.host Demo.app_tagged (Demo.boot Demo.laptop));
    reflexivity.
Defined.

Lemma New_tool_missing_witness :
  ∃ e', fst (New (Resolver := unit) (Project := unit)
               Demo.host Demo.app_tagged (Demo.boot Demo.bare)) = (None, Some e') ∧
        (snd (mapstructure_Decode Demo.host (module.Options Demo.app_tagged)) = None ->
         e' = exec.ToolchainMissing).
Proof.
  eapply (New_tool_missing Demo.host Demo.app_tagged (Demo.boot Demo.bare)).
  reflexivity.
Defined.

Lemma New_selects_command_witness :
  ∃ (a : Demo.Analyzer) s',
    New Demo.host Demo.app_all_tags (Demo.boot Demo.laptop_custom) = ((Some a, None), s') ∧
    snd (located Demo.host (Demo.boot Demo.laptop_custom)) = None ∧
    gocmd.Cmd (Analyzer.Go a) = "go1.11" ∧
    Analyzer.GoVersion a = "go version go1.11 linux/amd64".
Proof.
  eapply (New_selects_command Demo.host Demo.probe Demo.app_all_tags
            (Demo.boot Demo.laptop_custom)).
  - reflexivity.
  - reflexivity.
  - left. eexists. reflexivity.
Defined.

Lemma New_caches_empty_witness :
  gomap.set (Analyzer.resolverCache Demo.app_analyzer) "/src/example.org/app" tt
    = Some (Some {[ "/src/example.org/app" := tt ]}).
Proof.
  eapply (New_caches_empty Demo.host Demo.app_tagged (Demo.boot Demo.laptop)).
  reflexivity.
Defined.

Lemma IsBuilt_reports_listing_witness :
  snd (fst (IsBuilt Demo.host (Demo.proc_of Demo.app_analyzer Demo.laptop))) = None ∧
  (fst (fst (IsBuilt Demo.host (Demo.proc_of Demo.app_analyzer Demo.laptop))) = true ↔
   gocmd.Error (fst (listed Demo.host (Demo.proc_of Demo.app_analyzer Demo.laptop))) = None).
Proof.
  apply (IsBuilt_reports_listing Demo.host (Demo.proc_of Demo.app_analyzer Demo.laptop)
           (fst (listed Demo.host (Demo.proc_of Demo.app_analyzer Demo.laptop))) None).
  reflexivity.
Defined.


(** * Further properties on the reference host *)

Example New_app_tagged_all :
  length (Analyzer.BuildTags (Demo.built_for Demo.app_tagged_all Demo.laptop)) = 34.
Proof. reflexivity. Qed.

Example calls_on_laptop :
  Demo.built (world (sys (snd (calls Demo.host [CallBuild; CallIsBuilt; CallClean]
                                 (Demo.proc_of Demo.app_analyzer Demo.laptop)))))
  = [].
Proof. reflexivity. Qed.

Lemma New_decode_error_first_witness :
  fst (New (Resolver := unit) (Project := unit)
         Demo.host Demo.app_bad_options (Demo.boot Demo.bare))
    = (None, Some "unconvertible type") ∧
  snd (New (Resolver := unit) (Project := unit)
         Demo.host Demo.app_bad_options (Demo.boot Demo.bare))
    = {| world := Demo.bare; logged := [DebugModule Demo.app_bad_options] |}.
Proof.
  apply (New_decode_error_first (Resolver := unit) (Project := unit)
           Demo.host Demo.app_bad_options (Demo.boot Demo.bare)).
  reflexivity.
Defined.

Lemma New_worlds_membership_witness :
  "linux" ∈ Analyzer.BuildTags (Demo.built_for Demo.app_tagged_all Demo.laptop) ↔
    "linux" ∈ Tags (Analyzer.Options (Demo.built_for Demo.app_tagged_all Demo.laptop)) ∨
    (AllTags (Analyzer.Options (Demo.built_for Demo.app_tagged_all Demo.laptop)) = true ∧
     ("linux" ∈ osTags ∨ "linux" ∈ archTags)) ∨
    "linux" = "".
Proof.
  eapply (New_worlds_membership Demo.host Demo.app_tagged_all (Demo.boot Demo.laptop)).
  reflexivity.
Defined.

Lemma New_worlds_distinct_iff_witness :
  NoDup (Analyzer.BuildTags (Demo.built_for Demo.app_tagged_all Demo.laptop)) ↔
    NoDup (Tags (Analyzer.Options (Demo.built_for Demo.app_tagged_all Demo.laptop))) ∧
    ("" ∉ Tags (Analyzer.Options (Demo.built_for Demo.app_tagged_all Demo.laptop))) ∧
    (AllTags (Analyzer.Options (Demo.built_for Demo.app_tagged_all Demo.laptop)) = true ->
     ∀ t, t ∈ Tags (Analyzer.Options (Demo.built_for Demo.app_tagged_all Demo.laptop)) ->
          t ∉ osTags ++ archTags).
Proof.
  eapply (New_worlds_distinct_iff Demo.host Demo.app_tagged_all (Demo.boot Demo.laptop)).
  reflexivity.
Defined.

Lemma New_all_tags_only_adds_witness :
  Analyzer.BuildTags Demo.app_analyzer
    `sublist_of` Analyzer.BuildTags (Demo.built_for Demo.app_tagged_all Demo.laptop).
Proof.
  eapply (New_all_tags_only_adds Demo.host Demo.app_tagged Demo.app_tagged_all
            (Demo.boot Demo.laptop) _ (Demo.boot Demo.laptop));
    reflexivity.
Defined.

Lemma IsBuilt_ignores_worlds_witness :
  fst (IsBuilt Demo.host (Demo.proc_of Demo.app_analyzer Demo.laptop))
    = fst (IsBuilt Demo.host
             (Demo.proc_of (Demo.built_for Demo.app_tagged_all Demo.laptop) Demo.laptop)) ∧
  world (sys (snd (IsBuilt Demo.host (Demo.proc_of Demo.app_analyzer Demo.laptop))))
    = world (sys (snd (IsBuilt Demo.host
                         (Demo.proc_of (Demo.built_for Demo.app_tagged_all Demo.laptop)
                            Demo.laptop)))).
Proof.
  apply (IsBuilt_ignores_worlds Demo.host
           (Demo.proc_of Demo.app_analyzer Demo.laptop)
           (Demo.proc_of (Demo.built_for Demo.app_tagged_all Demo.laptop) Demo.laptop));
    reflexivity.
Defined.

Lemma New_then_IsBuilt_witness :
  listed Demo.host (Demo.proc_of Demo.app_analyzer Demo.laptop) =
    fst (Go_ListOne Demo.host
           {| gocmd.Cmd := "go"; gocmd.Dir := "/src/example.org/app" |}
           "example.org/app" [] false Demo.laptop) ∧
  fst (IsBuilt Demo.host (Demo.proc_of Demo.app_analyzer Demo.laptop)) = (true, None).
Proof.
  apply (New_then_IsBuilt Demo.host Demo.app_tagged (Demo.boot Demo.laptop)
           (snd (New (Resolver := unit) (Project := unit)
                   Demo.host Demo.app_tagged (Demo.boot Demo.laptop)))
           Demo.app_analyzer None (Demo.boot Demo.laptop)).
  reflexivity.
Defined.

Lemma New_then_Clean_Build_witness :
  fst (Clean Demo.host (Demo.proc_of Demo.app_analyzer Demo.laptop)) =
    fst (Go_Clean Demo.host
           {| gocmd.Cmd := "go"; gocmd.Dir := "/src/example.org/app" |}
           ["example.org/app"] Demo.laptop) ∧
  fst (Build Demo.host (Demo.proc_of Demo.app_analyzer Demo.laptop)) =
    fst (Go_Build Demo.host
           {| gocmd.Cmd := "go"; gocmd.Dir := "/src/example.org/app" |}
           ["example.org/app"] Demo.laptop).
Proof.
  apply (New_then_Clean_Build Demo.host Demo.app_tagged (Demo.boot Demo.laptop)
           (snd (New (Resolver := unit) (Project := unit)
                   Demo.host Demo.app_tagged (Demo.boot Demo.laptop)))
           Demo.app_analyzer None (Demo.boot Demo.laptop)).
  reflexivity.
Defined.


